(** * SecondaryCoolantProps: the fluid base class and the ethyl-alcohol mixture

    A shallow embedding of [scp/base_fluid.py] and [scp/ethyl_alcohol.py].

    - Python numbers ([int] and [float]) are embedded as exact rationals
      ([Q]); rounding, infinities and NaN are outside this model.
    - A Python object is its attribute dictionary, a finite map from
      attribute names to values; an attribute that was never assigned is
      absent from the map, which is different from holding [None].
    - A Python call either returns or raises: methods return a [result].
      Methods that assign to [self] return the updated object. *)

From Stdlib Require Import Ascii String QArith Qabs Lqa.
From stdpp Require Import gmap strings list fin_maps pretty.

Local Open Scope Q_scope.

(** ** The fragment of the Python runtime the two modules use *)

Module Py.

Inductive value : Type :=
| VNone
| VNum (q : Q).

Inductive exn : Type :=
| ValueError (msg : string)
| UserWarning (msg : string)
| TypeError
| AttributeError (attr : string)
| ZeroDivisionError.

Inductive result (A : Type) : Type :=
| Ok (a : A)
| Raise (e : exn).
Arguments Ok {A} a.
Arguments Raise {A} e.

(** Sequencing: the first exception raised ends the computation. *)
#[global] Instance result_ret : MRet result := fun A a => Ok a.
#[global] Instance result_bind : MBind result := fun A B k m =>
  match m with
  | Ok a => k a
  | Raise e => Raise e
  end.

(** [a < b] on rationals, as a boolean. *)
Definition Qltb (a b : Q) : bool := negb (Qle_bool b a).

(** Ordering comparisons: defined between numbers, [TypeError] as soon
    as one side is [None]. *)
Definition py_lt (a b : value) : result bool :=
  match a, b with
  | VNum x, VNum y => Ok (Qltb x y)
  | _, _ => Raise TypeError
  end.

Definition py_gt (a b : value) : result bool :=
  match a, b with
  | VNum x, VNum y => Ok (Qltb y x)
  | _, _ => Raise TypeError
  end.

Definition py_ge (a b : value) : result bool :=
  match a, b with
  | VNum x, VNum y => Ok (Qle_bool y x)
  | _, _ => Raise TypeError
  end.

Definition py_add (a b : value) : result value :=
  match a, b with
  | VNum x, VNum y => Ok (VNum (x + y))
  | _, _ => Raise TypeError
  end.

Definition py_mul (a b : value) : result value :=
  match a, b with
  | VNum x, VNum y => Ok (VNum (x * y))
  | _, _ => Raise TypeError
  end.

(** True division [a / b]: a zero divisor raises. *)
Definition py_truediv (a b : value) : result value :=
  match a, b with
  | VNum x, VNum y =>
      if Qeq_bool y 0 then Raise ZeroDivisionError else Ok (VNum (x / y))
  | _, _ => Raise TypeError
  end.

(** [a ** p] for an exponent drawn from [range(n)]. *)
Definition py_pow (a : value) (p : nat) : result value :=
  match a with
  | VNum x => Ok (VNum (x ^ Z.of_nat p))
  | VNone => Raise TypeError
  end.

(** [range(n)] *)
Definition range (n : nat) : list nat := seq 0 n.

(** [[f(p) for p in l]]: the elements are computed in order and the
    first exception ends the comprehension. *)
Fixpoint list_comp {A B} (f : A -> result B) (l : list A) : result (list B) :=
  match l with
  | [] => Ok []
  | a :: l' => b ← f a; bs ← list_comp f l'; mret (b :: bs)
  end.

(** [sum(gen)]: starts from [0] and adds the items as the generator
    yields them; an item that raises ends the sum. *)
Fixpoint sum_from (start : value) (gen : list (result value)) : result value :=
  match gen with
  | [] => Ok start
  | item :: rest => v ← item; s ← py_add start v; sum_from s rest
  end.

Definition py_sum (gen : list (result value)) : result value :=
  sum_from (VNum 0) gen.

(** [type(v) is not type(None)] *)
Definition is_not_none (v : value) : bool :=
  match v with
  | VNone => false
  | VNum _ => true
  end.

(** [self.name]: reading an attribute that was never assigned raises. *)
Definition getattr (self : gmap string value) (name : string) : result value :=
  match self !! name with
  | Some v => Ok v
  | None => Raise (AttributeError name)
  end.

(** The text of [{v:0.2f}] inside an f-string: two decimals, round
    half to even; [None] does not support the format. *)
Definition round_half_even (q : Q) : Z :=
  let n := Qnum q in
  let d := Zpos (Qden q) in
  let fl := (n / d)%Z in
  let r2 := (2 * (n mod d))%Z in
  if (r2 <? d)%Z then fl
  else if (d <? r2)%Z then (fl + 1)%Z
  else if Z.even fl then fl else (fl + 1)%Z.

Definition format_2f (v : value) : result string :=
  match v with
  | VNone => Raise TypeError
  | VNum q =>
      let cents := round_half_even (Qabs q * 100) in
      let whole := (cents / 100)%Z in
      let frac := (cents mod 100)%Z in
      let sign := if Qltb q 0 then "-"%string else EmptyString in
      let pad := if (frac <? 10)%Z then "0"%string else EmptyString in
      Ok (sign +:+ pretty whole +:+ "." +:+ pad +:+ pretty frac)
  end.

End Py.

Import Py.

(** A Python object: its attribute dictionary. *)
Abbreviation obj := (gmap string value).

(** Pieces of the f-strings. *)
Definition dquote : string := String "034"%char EmptyString.
Definition newline : string := String "010"%char EmptyString.

(** ** [scp/base_fluid.py] *)

Module BaseFluid.

(** What a derived class supplies: the abstract methods of [BaseFluid].
    [fluid_name_str] is the text of the method object [self.fluid_name],
    which the messages interpolate without calling it. *)
Class derived : Type := {
  fluid_name : string;
  fluid_name_str : string;
  viscosity : obj -> value -> result value;
  specific_heat : obj -> value -> result value;
  density : obj -> value -> result value;
  conductivity : obj -> value -> result value
}.

Section methods.
Context `{cls : derived}.

(** [{self.attr:0.2f}] *)
Definition fmt_attr (self : obj) (attr : string) : result string :=
  v ← getattr self attr; format_2f v.

Definition _set_concentration (self : obj) (conc c_min c_max : value)
  : result obj :=
  bad ← py_ge c_min c_max;
  let _ :=
    if bad : bool then
      let msg := "Fluid " +:+ dquote +:+ fluid_name_str +:+ dquote
                 +:+ ", c_min is greater than c_max" in
      Some (ValueError msg)              (* built, not raised *)
    else None in
  let self := <["c_min" := c_min]> self in
  let self := <["c_max" := c_max]> self in
  lo ← getattr self "c_min";
  below ← py_lt conc lo;
  if below : bool then
    lo1 ← fmt_attr self "c_min";
    let msg := "Fluid " +:+ dquote +:+ fluid_name_str +:+ dquote
               +:+ ", concentration must be greater than " +:+ lo1
               +:+ newline in
    lo2 ← fmt_attr self "c_min";
    let msg := msg +:+ "Resetting concentration to " +:+ lo2 in
    let _ := UserWarning msg in          (* built, not issued *)
    c ← getattr self "c_min";
    mret (<["c" := c]> self)
  else
    hi ← getattr self "c_max";
    above ← py_gt conc hi;
    if above : bool then
      hi1 ← fmt_attr self "c_max";
      let msg := "Fluid " +:+ dquote +:+ fluid_name_str +:+ dquote
                 +:+ ", concentration must be less than " +:+ hi1
                 +:+ newline in
      hi2 ← fmt_attr self "c_max";
      let msg := msg +:+ "Resetting concentration to " +:+ hi2 in
      let _ := UserWarning msg in
      c ← getattr self "c_max";
      mret (<["c" := c]> self)
    else
      mret (<["c" := conc]> self).

Definition _check_concentration (self : obj) (conc : value)
  : result value :=
  lo ← getattr self "c_min";
  below ← py_lt conc lo;
  if below : bool then
    lo1 ← fmt_attr self "c_min";
    let msg := "Fluid " +:+ dquote +:+ fluid_name_str +:+ dquote
               +:+ ", concentration must be greater than " +:+ lo1
               +:+ newline in
    lo2 ← fmt_attr self "c_min";
    let msg := msg +:+ "Resetting concentration to " +:+ lo2 in
    let _ := UserWarning msg in
    getattr self "c_min"
  else
    hi ← getattr self "c_max";
    above ← py_gt conc hi;
    if above : bool then
      hi1 ← fmt_attr self "c_max";
      let msg := "Fluid " +:+ dquote +:+ fluid_name_str +:+ dquote
                 +:+ ", concentration must be less than " +:+ hi1
                 +:+ newline in
      hi2 ← fmt_attr self "c_max";
      let msg := msg +:+ "Resetting concentration to " +:+ hi2 in
      let _ := UserWarning msg in
      getattr self "c_max"
    else
      mret conc.

Definition _set_temperature_limits (self : obj) (t_min t_max : value)
  : result obj :=
  bad ← py_ge t_min t_max;
  let _ :=
    if bad : bool then
      let msg := "Fluid " +:+ dquote +:+ fluid_name_str +:+ dquote
                 +:+ ", t_min is greater than t_max" in
      Some (ValueError msg)              (* built, not raised *)
    else None in
  let self := <["t_min" := t_min]> self in
  let self := <["t_max" := t_max]> self in
  mret self.

Definition _check_temperature (self : obj) (temp : value)
  : result value :=
  lo ← getattr self "t_min";
  below ← py_lt temp lo;
  if below : bool then
    lo1 ← fmt_attr self "t_min";
    let msg := "Fluid " +:+ dquote +:+ fluid_name_str +:+ dquote
               +:+ ", temperature must be greater than " +:+ lo1
               +:+ newline in
    lo2 ← fmt_attr self "t_min";
    let msg := msg +:+ "Resetting temperature to " +:+ lo2 in
    let _ := UserWarning msg in
    getattr self "t_min"
  else
    hi ← getattr self "t_max";
    above ← py_gt temp hi;
    if above : bool then
      hi1 ← fmt_attr self "t_max";
      let msg := "Fluid " +:+ dquote +:+ fluid_name_str +:+ dquote
                 +:+ ", temperature must be less than " +:+ hi1
                 +:+ newline in
      hi2 ← fmt_attr self "t_max";
      let msg := msg +:+ "Resetting temperature to " +:+ hi2 in
      let _ := UserWarning msg in
      getattr self "t_max"
    else
      mret temp.

(** The constructor; the defaults [conc=None, c_min=None, c_max=None]
    are passed explicitly. *)
Definition __init__ (self : obj) (t_min t_max conc c_min c_max : value)
  : result obj :=
  let self := <["t_min" := VNone]> self in
  let self := <["t_max" := VNone]> self in
  self ← _set_temperature_limits self t_min t_max;
  if is_not_none conc then
    let self := <["c_min" := VNone]> self in
    let self := <["c_max" := VNone]> self in
    let self := <["c" := VNone]> self in
    _set_concentration self conc c_min c_max
  else
    mret self.

Definition mu (self : obj) (temp : value) : result value :=
  viscosity self temp.

Definition cp (self : obj) (temp : value) : result value :=
  specific_heat self temp.

Definition rho (self : obj) (temp : value) : result value :=
  density self temp.

Definition k (self : obj) (temp : value) : result value :=
  conductivity self temp.

(** [self.cp(temp) * self.mu(temp) / self.k(temp)], operands
    evaluated left to right. *)
Definition prandtl (self : obj) (temp : value) : result value :=
  a ← cp self temp;
  b ← mu self temp;
  ab ← py_mul a b;
  c ← k self temp;
  py_truediv ab c.

(** [temp] defaults to [0.0] at the call site. *)
Definition pr (self : obj) (temp : value) : result value :=
  prandtl self temp.

(** [self.k(temp) / (self.rho(temp) * self.cp(temp))] *)
Definition thermal_diffusivity (self : obj) (temp : value)
  : result value :=
  a ← k self temp;
  b ← rho self temp;
  c ← cp self temp;
  bc ← py_mul b c;
  py_truediv a bc.

Definition alpha (self : obj) (temp : value) : result value :=
  thermal_diffusivity self temp.

End methods.

End BaseFluid.

(** ** [scp/base_melinder.py] *)

Module BaseMelinder.

Section methods.
Context `{cls : BaseFluid.derived}.

(** Modelled from the spec: [scp/base_melinder.py], the parent class
    of the mixture fluids, is not among the sources. Its constructor
    receives the bound-definition inputs [(t_min, t_max, conc, c_min,
    c_max)] and hands them to the base fluid, which validates the
    bounds and fixes the concentration once at construction. *)
Definition __init__ (self : obj) (t_min t_max x x_min x_max : value)
  : result obj :=
  BaseFluid.__init__ self t_min t_max x x_min x_max.

End methods.

End BaseMelinder.

(** ** [scp/ethyl_alcohol.py] *)

Module EthylAlcohol.

Definition coefficient_viscosity : list (list Q) :=
  [ [1.4740e00; -4.7450e-02; 4.3140e-04; -3.0230e-06];
    [1.5650e-02; -4.1060e-05; -5.1350e-06; 7.0040e-08];
    [-8.4350e-04; 1.6400e-05; -1.0910e-07; -1.9670e-09];
    [7.5520e-06; -1.1180e-07; 1.8990e-09];
    [1.5290e-07; -9.4810e-10];
    [-4.1300e-09] ].

Definition coefficient_specific_heat : list (list Q) :=
  [ [4.2040e03; 2.3190e00; -3.0420e-02; 6.8600e-04];
    [-2.1020e01; 4.9270e-01; -3.0720e-03; -5.6900e-05];
    [-3.7140e-01; -2.3350e-03; -1.9600e-05; 7.4610e-07];
    [1.7430e-02; -2.9690e-04; 1.9010e-06];
    [-6.2920e-05; 5.3530e-06];
    [-8.2900e-06] ].

Definition coefficient_conductivity : list (list Q) :=
  [ [4.0670e-01; 6.7750e-04; 3.1050e-07; -2.0000e-08];
    [-5.0080e-03; -2.3770e-05; -3.2160e-08; 8.3620e-11];
    [2.8010e-05; 2.6690e-07; -3.6060e-09; 1.5520e-11];
    [-2.0090e-08; -6.8130e-09; 1.4290e-10];
    [-1.5060e-09; 1.1670e-10];
    [-1.6530e-11] ].

Definition coefficient_density : list (list Q) :=
  [ [9.6190e02; -5.2220e-01; -3.2810e-03; 1.5690e-05];
    [-1.4330e00; -1.9890e-02; 1.8700e-04; -9.1540e-07];
    [-2.2600e-02; 2.2810e-04; -8.5810e-08; 4.0560e-09];
    [-1.6900e-04; 8.5940e-06; -9.6070e-08];
    [1.2910e-05; -1.5900e-07];
    [-8.3180e-08] ].

Definition fluid_name : string := "EthylAlcohol".

(** The local list of [calc_freeze_point]. *)
Definition coefficient_freeze : list Q :=
  [2.4685e00; -9.8592e-01; 1.6750e-02; -1.8251e-04].

Section methods.
(** Inherited through [BaseMelinder]: the four property evaluators.
    The class overrides [fluid_name]. *)
Context (inherited : BaseFluid.derived).

#[local] Instance cls : BaseFluid.derived := {|
  BaseFluid.fluid_name := fluid_name;
  BaseFluid.fluid_name_str := BaseFluid.fluid_name_str;
  BaseFluid.viscosity := BaseFluid.viscosity;
  BaseFluid.specific_heat := BaseFluid.specific_heat;
  BaseFluid.density := BaseFluid.density;
  BaseFluid.conductivity := BaseFluid.conductivity
|}.

(** The body of [calc_freeze_point], for any content of its local
    list [coefficient_freeze]. *)
Definition calc_freeze_point_with (coefficient_freeze : list Q)
  (self : obj) (x : value) : result value :=
  low ← py_lt x (VNum 0.05);
  if low : bool then
    mret (VNum 0)
  else
    x ← BaseFluid._check_concentration self x;
    c_pow ← list_comp (fun p => py_pow x p) (range 4);
    py_sum (map (fun '(i, j) => py_mul (VNum i) j)
                (zip coefficient_freeze c_pow)).

Definition calc_freeze_point (self : obj) (x : value) : result value :=
  calc_freeze_point_with coefficient_freeze self x.

Definition __init__ (self : obj) (x : value) : result obj :=
  self ← BaseMelinder.__init__ self (VNum 0.0) (VNum 40) x
           (VNum 0.0) (VNum 0.6);
  t ← calc_freeze_point self x;
  let self := <["t_min" := t]> self in
  let self := <["t_freeze" := t]> self in
  let self := <["x_base" := VNum 29.2361]> self in
  let self := <["t_base" := VNum 8.1578]> self in
  mret self.

End methods.

End EthylAlcohol.

(** ** The statements of the specification

    Definitions that follow the words of the specification, and the
    values the theorems name; the theorems below compare them with the
    code above. *)

(** The clamp policy of the range guard: [r] is [v] clamped into the
    bounds [lo], [hi]. *)
Definition clamped (lo hi v r : Q) : Prop :=
  (v < lo -> r = lo) /\ (hi < v -> r = hi) /\ (lo <= v <= hi -> r = v).

(** The same policy as one expression. *)
Definition clamp (lo hi v : Q) : Q :=
  if Qltb v lo then lo else if Qltb hi v then hi else v.

(** A coefficient table is triangular when row [i] (0-indexed) has
    [4 - i] entries. *)
Definition triangular (table : list (list Q)) : Prop :=
  forall (i : nat) (row : list Q),
    table !! i = Some row -> length row = (4 - i)%nat.

(** The tables the four coefficient providers of the ethyl-alcohol
    class return. *)
Definition coefficient_tables : list (list (list Q)) :=
  [ EthylAlcohol.coefficient_viscosity;
    EthylAlcohol.coefficient_specific_heat;
    EthylAlcohol.coefficient_conductivity;
    EthylAlcohol.coefficient_density ].

(** The 1-D polynomial: the sum over [k] from [0] to [len - 1] of
    [coefficients_1d[k] * concentration ^ k]. *)
Definition freeze_poly (coefficients_1d : list Q) (concentration : Q) : Q :=
  fold_left Qplus
    (map (fun k => nth k coefficients_1d 0 * concentration ^ Z.of_nat k)
         (seq 0 (length coefficients_1d)))
    0.

(** The freeze point of the ethyl-alcohol mixture at concentration [x]:
    [0] below the threshold, otherwise the polynomial at [x] clamped
    into the concentration bounds [[0, 0.6]] of the class. *)
Definition freeze_point (x : Q) : Q :=
  if Qltb x 0.05 then 0
  else freeze_poly EthylAlcohol.coefficient_freeze (clamp 0.0 0.6 x).


(** The ethyl-alcohol instance as the base constructor leaves it: the
    attributes in the order the constructor assigns them. *)
Definition after_base_init (x : Q) : obj :=
  <["c" := VNum (clamp 0.0 0.6 x)]>
    (<["c_max" := VNum 0.6]> (<["c_min" := VNum 0.0]>
       (<["c" := VNone]> (<["c_max" := VNone]> (<["c_min" := VNone]>
          (<["t_max" := VNum 40]> (<["t_min" := VNum 0.0]>
             (<["t_max" := VNone]> (<["t_min" := VNone]> ∅))))))))).

(** [derive_prandtl]: [specific_heat * viscosity / conductivity]. *)
Definition derive_prandtl (specific_heat viscosity conductivity : value)
  : result value :=
  p ← py_mul specific_heat viscosity; py_truediv p conductivity.

(** [derive_thermal_diffusivity]:
    [conductivity / (density * specific_heat)]. *)
Definition derive_thermal_diffusivity (conductivity density specific_heat : value)
  : result value :=
  p ← py_mul density specific_heat; py_truediv conductivity p.

(** ** A sample fluid for the worked instances

    Constant properties: the reference values for water at 25 degrees
    Celsius that [tests/test_water.py] compares against. *)

Module Sample.

Definition constant_fluid : BaseFluid.derived := {|
  BaseFluid.fluid_name := "Sample";
  BaseFluid.fluid_name_str := "<bound method Sample.fluid_name>";
  BaseFluid.viscosity := fun _ _ => Ok (VNum 8.900e-04);
  BaseFluid.specific_heat := fun _ _ => Ok (VNum 4.181e+03);
  BaseFluid.density := fun _ _ => Ok (VNum 9.970e+02);
  BaseFluid.conductivity := fun _ _ => Ok (VNum 6.065e-01)
|}.

(** A fluid whose conductivity and density evaluate to zero. *)
Definition degenerate_fluid : BaseFluid.derived := {|
  BaseFluid.fluid_name := "Degenerate";
  BaseFluid.fluid_name_str := "<bound method Degenerate.fluid_name>";
  BaseFluid.viscosity := fun _ _ => Ok (VNum 8.900e-04);
  BaseFluid.specific_heat := fun _ _ => Ok (VNum 4.181e+03);
  BaseFluid.density := fun _ _ => Ok (VNum 0);
  BaseFluid.conductivity := fun _ _ => Ok (VNum 0)
|}.

(** An instance with temperatures from 0 to 100 degrees Celsius and
    concentrations from 0 to 100 percent. *)
Definition bounded : obj :=
  <["c_max" := VNum 100]> (<["c_min" := VNum 0]>
    (<["t_max" := VNum 100]> (<["t_min" := VNum 0]> ∅))).

(** An instance with the concentration bounds of the ethyl-alcohol
    class. *)
Definition fraction_bounded : obj :=
  <["c_max" := VNum 0.6]> (<["c_min" := VNum 0.0]> ∅).

(** A fluid whose viscosity has no value and whose conductivity
    raises. *)
Definition unfitted_fluid : BaseFluid.derived := {|
  BaseFluid.fluid_name := "Unfitted";
  BaseFluid.fluid_name_str := "<bound method Unfitted.fluid_name>";
  BaseFluid.viscosity := fun _ _ => Ok VNone;
  BaseFluid.specific_heat := fun _ _ => Ok (VNum 4.181e+03);
  BaseFluid.density := fun _ _ => Ok (VNum 9.970e+02);
  BaseFluid.conductivity := fun _ _ => Raise ZeroDivisionError
|}.

End Sample.

(** * Properties *)

(** ** Comparisons and runtime helpers *)

Lemma Qltb_true (a b : Q) : Qltb a b = true <-> a < b.
Proof.
  unfold Qltb. rewrite negb_true_iff. split.
  - intros H. apply Qnot_le_lt. intros Hle.
    apply Qle_bool_iff in Hle. congruence.
  - intros H. destruct (Qle_bool b a) eqn:E; [|reflexivity].
    apply Qle_bool_iff in E. lra.
Qed.

Lemma Qltb_false (a b : Q) : Qltb a b = false <-> b <= a.
Proof.
  unfold Qltb. rewrite negb_false_iff. apply Qle_bool_iff.
Qed.

Lemma getattr_Some (self : obj) (name : string) (v : value) :
  self !! name = Some v -> getattr self name = Ok v.
Proof. intros H. unfold getattr. now rewrite H. Qed.

Lemma getattr_None (self : obj) (name : string) :
  self !! name = None -> getattr self name = Raise (AttributeError name).
Proof. intros H. unfold getattr. now rewrite H. Qed.

Lemma format_2f_num (q : Q) : exists s, format_2f (VNum q) = Ok s.
Proof. unfold format_2f. eexists. reflexivity. Qed.

Lemma fmt_attr_num (self : obj) (name : string) (q : Q) :
  self !! name = Some (VNum q) ->
  exists s, BaseFluid.fmt_attr self name = Ok s.
Proof.
  intros H. unfold BaseFluid.fmt_attr. rewrite (getattr_Some _ _ _ H).
  apply format_2f_num.
Qed.

Lemma clamp_clamped (lo hi v : Q) : lo < hi -> clamped lo hi v (clamp lo hi v).
Proof.
  intros Hlh. unfold clamped, clamp.
  destruct (Qltb v lo) eqn:E1; [apply Qltb_true in E1 | apply Qltb_false in E1];
    (destruct (Qltb hi v) eqn:E2; [apply Qltb_true in E2 | apply Qltb_false in E2]);
    repeat split; intros; try reflexivity; lra.
Qed.

Lemma clamp_in_bounds (lo hi v : Q) : lo < hi -> lo <= clamp lo hi v <= hi.
Proof.
  intros Hlh. unfold clamp.
  destruct (Qltb v lo) eqn:E1; [apply Qltb_true in E1 | apply Qltb_false in E1];
    (destruct (Qltb hi v) eqn:E2; [apply Qltb_true in E2 | apply Qltb_false in E2]);
    lra.
Qed.

(** Reads an attribute of an object given by a chain of assignments. *)
Ltac attr_lookup :=
  repeat (rewrite lookup_insert_ne by discriminate);
  first [apply lookup_insert_eq | reflexivity].

(** ** The range guard *)

(** Runs a check method whose two bound attributes hold numbers: the
    attribute reads and the message formatting succeed, and what is left
    is the two comparisons. *)
Ltac run_check Hlo Hhi :=
  unfold clamp;
  let slo := fresh "slo" in let Eslo := fresh "Eslo" in
  let shi := fresh "shi" in let Eshi := fresh "Eshi" in
  destruct (fmt_attr_num _ _ _ Hlo) as [slo Eslo];
  destruct (fmt_attr_num _ _ _ Hhi) as [shi Eshi];
  rewrite ?(getattr_Some _ _ _ Hlo), ?(getattr_Some _ _ _ Hhi), ?Eslo, ?Eshi;
  cbn [mbind mret result_bind result_ret py_lt py_gt];
  repeat match goal with
         | |- context [if Qltb ?a ?b then _ else _] => destruct (Qltb a b)
         end;
  reflexivity.

Section range_guard.
Context `{cls : BaseFluid.derived}.

Lemma check_temperature_num (self : obj) (lo hi v : Q) :
  self !! "t_min" = Some (VNum lo) ->
  self !! "t_max" = Some (VNum hi) ->
  BaseFluid._check_temperature self (VNum v) = Ok (VNum (clamp lo hi v)).
Proof.
  intros Hlo Hhi. unfold BaseFluid._check_temperature. run_check Hlo Hhi.
Qed.

Lemma check_concentration_num (self : obj) (lo hi v : Q) :
  self !! "c_min" = Some (VNum lo) ->
  self !! "c_max" = Some (VNum hi) ->
  BaseFluid._check_concentration self (VNum v) = Ok (VNum (clamp lo hi v)).
Proof.
  intros Hlo Hhi. unfold BaseFluid._check_concentration. run_check Hlo Hhi.
Qed.

End range_guard.

(** C2. With numeric bounds [lo < hi] stored on the instance, the
    temperature check and the concentration check return a number for
    every numeric query, never an exception: [lo] when the query is
    below [lo], [hi] when it is above [hi], the query itself otherwise. *)
Theorem check_clamps_and_never_raises `{cls : BaseFluid.derived}
    (self : obj) (lo hi v : Q) :
  lo < hi ->
  (self !! "t_min" = Some (VNum lo) -> self !! "t_max" = Some (VNum hi) ->
   exists r, BaseFluid._check_temperature self (VNum v) = Ok (VNum r)
             /\ clamped lo hi v r)
  /\
  (self !! "c_min" = Some (VNum lo) -> self !! "c_max" = Some (VNum hi) ->
   exists r, BaseFluid._check_concentration self (VNum v) = Ok (VNum r)
             /\ clamped lo hi v r).
Proof.
  intros Hlh. split; intros Hlo Hhi; exists (clamp lo hi v); split.
  - now apply check_temperature_num.
  - now apply clamp_clamped.
  - now apply check_concentration_num.
  - now apply clamp_clamped.
Qed.

(** ** Construction *)

Section construction.
Context `{cls : BaseFluid.derived}.

Lemma set_temperature_limits_num (self : obj) (t_min t_max : Q) :
  BaseFluid._set_temperature_limits self (VNum t_min) (VNum t_max)
  = Ok (<["t_max" := VNum t_max]> (<["t_min" := VNum t_min]> self)).
Proof. reflexivity. Qed.

Lemma set_concentration_num (self : obj) (conc lo hi : Q) :
  BaseFluid._set_concentration self (VNum conc) (VNum lo) (VNum hi)
  = Ok (<["c" := VNum (clamp lo hi conc)]>
          (<["c_max" := VNum hi]> (<["c_min" := VNum lo]> self))).
Proof.
  unfold BaseFluid._set_concentration.
  cbn [mbind mret result_bind result_ret py_ge].
  set (self' := <["c_max" := VNum hi]> (<["c_min" := VNum lo]> self)).
  assert (Hlo : self' !! "c_min" = Some (VNum lo))
    by (unfold self'; attr_lookup).
  assert (Hhi : self' !! "c_max" = Some (VNum hi))
    by (unfold self'; attr_lookup).
  run_check Hlo Hhi.
Qed.

Lemma init_with_concentration (self : obj) (t_min t_max conc lo hi : Q) :
  BaseFluid.__init__ self (VNum t_min) (VNum t_max)
                     (VNum conc) (VNum lo) (VNum hi)
  = Ok (<["c" := VNum (clamp lo hi conc)]>
          (<["c_max" := VNum hi]> (<["c_min" := VNum lo]>
             (<["c" := VNone]> (<["c_max" := VNone]> (<["c_min" := VNone]>
                (<["t_max" := VNum t_max]> (<["t_min" := VNum t_min]>
                   (<["t_max" := VNone]> (<["t_min" := VNone]> self)))))))))).
Proof.
  unfold BaseFluid.__init__. rewrite set_temperature_limits_num.
  cbn [mbind result_bind is_not_none]. apply set_concentration_num.
Qed.

Lemma init_without_concentration (self : obj) (t_min t_max : Q)
    (c_min c_max : value) :
  BaseFluid.__init__ self (VNum t_min) (VNum t_max) VNone c_min c_max
  = Ok (<["t_max" := VNum t_max]> (<["t_min" := VNum t_min]>
          (<["t_max" := VNone]> (<["t_min" := VNone]> self)))).
Proof. reflexivity. Qed.

End construction.

(** C1. The code at inverted bounds. With [t_min=50, t_max=10] the
    constructor returns an instance holding these bounds instead of
    raising, and the instance answers queries: every temperature is sent
    to one of the two inverted bounds or kept. Likewise with
    [c_min=0.6, c_max=0.0]: the instance is returned and its
    concentration is set from the inverted bounds. The [ValueError] of
    [_set_temperature_limits] and [_set_concentration] is built and
    dropped. *)
Theorem init_accepts_inverted_bounds `{cls : BaseFluid.derived} :
  (exists self,
      BaseFluid.__init__ ∅ (VNum 50) (VNum 10) VNone VNone VNone = Ok self
      /\ self !! "t_min" = Some (VNum 50)
      /\ self !! "t_max" = Some (VNum 10)
      /\ BaseFluid._check_temperature self (VNum 25) = Ok (VNum 50))
  /\
  (exists self,
      BaseFluid.__init__ ∅ (VNum 0) (VNum 100)
                         (VNum 0.3) (VNum 0.6) (VNum 0.0) = Ok self
      /\ self !! "c_min" = Some (VNum 0.6)
      /\ self !! "c_max" = Some (VNum 0.0)
      /\ self !! "c" = Some (VNum 0.6)).
Proof.
  split.
  - eexists. split; [apply init_without_concentration|].
    split; [reflexivity|]. split; [reflexivity|].
    erewrite check_temperature_num by reflexivity. reflexivity.
  - eexists. split; [apply init_with_concentration|].
    split; [reflexivity|]. split; reflexivity.
Qed.

(** C10. Constructing a fresh object without a concentration
    ([conc=None]) returns an instance on which [c_min], [c_max] and [c]
    do not exist, and on which [_check_concentration] raises
    [AttributeError] for every argument; constructing with a numeric
    concentration and numeric bounds returns an instance on which
    [_check_concentration] returns a number for every numeric argument. *)
Theorem check_concentration_needs_concentration `{cls : BaseFluid.derived}
    (t_min t_max : Q) :
  (forall c_min c_max : value, exists self,
      BaseFluid.__init__ ∅ (VNum t_min) (VNum t_max) VNone c_min c_max = Ok self
      /\ self !! "c_min" = None /\ self !! "c_max" = None /\ self !! "c" = None
      /\ forall conc : value,
          BaseFluid._check_concentration self conc = Raise (AttributeError "c_min"))
  /\
  (forall conc lo hi : Q, exists self,
      BaseFluid.__init__ ∅ (VNum t_min) (VNum t_max)
                         (VNum conc) (VNum lo) (VNum hi) = Ok self
      /\ forall v : Q, exists r,
          BaseFluid._check_concentration self (VNum v) = Ok (VNum r)).
Proof.
  split.
  - intros c_min c_max. eexists.
    split; [apply init_without_concentration|].
    split; [reflexivity|]. split; [reflexivity|]. split; [reflexivity|].
    intros conc. unfold BaseFluid._check_concentration.
    rewrite getattr_None by reflexivity. reflexivity.
  - intros conc lo hi. eexists.
    split; [apply init_with_concentration|].
    intros v. eexists. apply check_concentration_num; reflexivity.
Qed.

(** ** Coefficient tables *)

(** Row 1 of the viscosity table has four entries, not three, so the
    tables are not triangular in the sense of [4 - i] entries in row [i]. *)
Lemma coefficient_tables_not_triangular :
  ~ Forall triangular coefficient_tables.
Proof.
  intros H. apply Forall_inv in H.
  specialize (H 1%nat [1.5650e-02; -4.1060e-05; -5.1350e-06; 7.0040e-08] eq_refl).
  discriminate H.
Qed.

(** C3, amended. Each of the four coefficient tables has six rows, of
    lengths 4, 4, 4, 3, 2, 1: row [i] has [min 4 (6 - i)] entries, so
    the row lengths never increase, and decrease by one per row from
    row 2 on. *)
Theorem coefficient_tables_shape :
  Forall (fun table =>
            map length table = [4; 4; 4; 3; 2; 1]%nat
            /\ forall (i : nat) (row : list Q),
                table !! i = Some row -> length row = Nat.min 4 (6 - i))
         coefficient_tables.
Proof.
  repeat constructor;
    intros i row H;
    do 6 (destruct i as [|i]; [injection H as <-; reflexivity|]);
    discriminate H.
Qed.

(** ** The freeze point *)

Lemma list_comp_pow (x : Q) (ps : list nat) :
  list_comp (fun p => py_pow (VNum x) p) ps
  = Ok (map (fun p => VNum (x ^ Z.of_nat p)) ps).
Proof.
  induction ps as [|p ps IH]; [reflexivity|].
  cbn [list_comp]. rewrite IH. reflexivity.
Qed.

(** The sum over the zipped products is a left fold, started from the
    running total, over the coefficients paired with their exponents. *)
Lemma sum_from_products (x : Q) (coefs : list Q) :
  forall (ps : list nat) (acc : Q),
    sum_from (VNum acc)
      (map (fun '(i, j) => py_mul (VNum i) j)
           (zip coefs (map (fun p => VNum (x ^ Z.of_nat p)) ps)))
    = Ok (VNum (fold_left Qplus
                  (map (fun '(i, p) => i * x ^ Z.of_nat p) (zip coefs ps))
                  acc)).
Proof.
  induction coefs as [|c coefs IH]; intros ps acc; [reflexivity|].
  destruct ps as [|p ps]; [reflexivity|].
  cbn [zip_with map sum_from py_mul py_add mbind result_bind fold_left].
  apply IH.
Qed.

(** Zipping with a long enough range pairs each coefficient with its
    own index. *)
Lemma zip_range_nth (coefs : list Q) :
  forall s n : nat,
    (length coefs <= n)%nat ->
    zip coefs (seq s n)
    = map (fun k => (nth (k - s) coefs 0, k)) (seq s (length coefs)).
Proof.
  induction coefs as [|c coefs IH]; intros s n Hn; [reflexivity|].
  destruct n as [|n]; [simpl in Hn; lia|].
  cbn [length seq zip_with map]. rewrite Nat.sub_diag. cbn [nth]. f_equal.
  rewrite IH by (simpl in Hn; lia).
  apply map_ext_in. intros k Hk. apply in_seq in Hk.
  replace (k - s)%nat with (S (k - S s)) by lia. reflexivity.
Qed.

Lemma sum_products_is_freeze_poly (coefs : list Q) (x : Q) (n : nat) :
  (length coefs <= n)%nat ->
  py_sum (map (fun '(i, j) => py_mul (VNum i) j)
              (zip coefs (map (fun p => VNum (x ^ Z.of_nat p)) (range n))))
  = Ok (VNum (freeze_poly coefs x)).
Proof.
  intros Hn. unfold py_sum, range, freeze_poly.
  rewrite sum_from_products, zip_range_nth by exact Hn.
  rewrite map_map. do 3 f_equal.
  apply map_ext. intros k. now rewrite Nat.sub_0_r.
Qed.

Section freeze_point.
Context (inherited : BaseFluid.derived).

Lemma calc_freeze_point_low (coefs : list Q) (self : obj) (x : Q) :
  x < 0.05 ->
  EthylAlcohol.calc_freeze_point_with inherited coefs self (VNum x)
  = Ok (VNum 0).
Proof.
  intros Hx. unfold EthylAlcohol.calc_freeze_point_with.
  cbn [py_lt mbind result_bind].
  now rewrite (proj2 (Qltb_true _ _) Hx).
Qed.

Lemma calc_freeze_point_high (coefs : list Q) (self : obj) (lo hi x : Q) :
  0.05 <= x ->
  (length coefs <= 4)%nat ->
  self !! "c_min" = Some (VNum lo) ->
  self !! "c_max" = Some (VNum hi) ->
  EthylAlcohol.calc_freeze_point_with inherited coefs self (VNum x)
  = Ok (VNum (freeze_poly coefs (clamp lo hi x))).
Proof.
  intros Hx Hlen Hlo Hhi. unfold EthylAlcohol.calc_freeze_point_with.
  cbn [py_lt mbind result_bind].
  rewrite (proj2 (Qltb_false _ _) Hx).
  rewrite (check_concentration_num _ _ _ _ Hlo Hhi).
  cbn [mbind result_bind]. rewrite list_comp_pow.
  cbn [mbind result_bind]. now apply sum_products_is_freeze_poly.
Qed.

End freeze_point.

(** C4. Below [0.05] the freeze point is [0] whatever the coefficients
    and whatever the instance. From [0.05] on, on an instance with
    numeric bounds [c_min < c_max] and for up to four coefficients (the
    method has four), the concentration is clamped into the bounds and
    the result is the polynomial: the sum over [k] from [0] to
    [len - 1] of [coefficients[k]] times the clamped concentration to
    the power [k]. *)
Theorem calc_freeze_point_spec (inherited : BaseFluid.derived)
    (coefs : list Q) (self : obj) (lo hi x : Q) :
  (x < 0.05 ->
   EthylAlcohol.calc_freeze_point_with inherited coefs self (VNum x)
   = Ok (VNum 0))
  /\
  (0.05 <= x ->
   (length coefs <= 4)%nat ->
   lo < hi ->
   self !! "c_min" = Some (VNum lo) ->
   self !! "c_max" = Some (VNum hi) ->
   exists xc,
     clamped lo hi x xc
     /\ BaseFluid._check_concentration (cls := EthylAlcohol.cls inherited)
          self (VNum x) = Ok (VNum xc)
     /\ EthylAlcohol.calc_freeze_point_with inherited coefs self (VNum x)
        = Ok (VNum (freeze_poly coefs xc))).
Proof.
  split.
  - apply calc_freeze_point_low.
  - intros Hx Hlen Hlh Hlo Hhi. exists (clamp lo hi x).
    split; [now apply clamp_clamped|].
    split; [now apply check_concentration_num|].
    now apply calc_freeze_point_high.
Qed.

(** ** The ethyl-alcohol constructor *)

Section ethyl_alcohol.
Context (inherited : BaseFluid.derived).

Lemma calc_freeze_point_num (self : obj) (x : Q) :
  self !! "c_min" = Some (VNum 0.0) ->
  self !! "c_max" = Some (VNum 0.6) ->
  EthylAlcohol.calc_freeze_point inherited self (VNum x)
  = Ok (VNum (freeze_point x)).
Proof.
  intros Hlo Hhi. unfold EthylAlcohol.calc_freeze_point, freeze_point.
  destruct (Qltb x 0.05) eqn:E.
  - apply calc_freeze_point_low. now apply Qltb_true.
  - apply calc_freeze_point_high; [now apply Qltb_false | simpl; lia | | ];
      assumption.
Qed.

Lemma ethyl_alcohol_init (x : Q) :
  EthylAlcohol.__init__ inherited ∅ (VNum x)
  = Ok (<["t_base" := VNum 8.1578]> (<["x_base" := VNum 29.2361]>
          (<["t_freeze" := VNum (freeze_point x)]>
             (<["t_min" := VNum (freeze_point x)]> (after_base_init x))))).
Proof.
  unfold EthylAlcohol.__init__, BaseMelinder.__init__.
  rewrite init_with_concentration. fold (after_base_init x).
  cbn [mbind result_bind].
  rewrite (calc_freeze_point_num (after_base_init x) x) by reflexivity.
  reflexivity.
Qed.

End ethyl_alcohol.

(** C9. Constructing with a numeric concentration [conc] and numeric
    bounds [lo < hi] returns an instance whose [c_min], [c_max] are the
    bounds and whose [c] is [conc] clamped into them, hence within
    [[lo, hi]]; this holds for the constructor and for the worker
    [_set_concentration] it calls. The derived constructor of the
    ethyl-alcohol mixture, which continues after the base constructor,
    leaves [c] as the base constructor set it. No other method of the
    base class assigns to [self]: they are embedded as functions that
    return a value only. *)
Theorem concentration_clamped_at_construction `{cls : BaseFluid.derived}
    (self : obj) (t_min t_max conc lo hi : Q) :
  lo < hi ->
  (exists self' c,
      BaseFluid._set_concentration self (VNum conc) (VNum lo) (VNum hi) = Ok self'
      /\ self' !! "c_min" = Some (VNum lo)
      /\ self' !! "c_max" = Some (VNum hi)
      /\ self' !! "c" = Some (VNum c)
      /\ clamped lo hi conc c /\ lo <= c <= hi)
  /\
  (exists self' c,
      BaseFluid.__init__ self (VNum t_min) (VNum t_max)
                         (VNum conc) (VNum lo) (VNum hi) = Ok self'
      /\ self' !! "c_min" = Some (VNum lo)
      /\ self' !! "c_max" = Some (VNum hi)
      /\ self' !! "c" = Some (VNum c)
      /\ clamped lo hi conc c /\ lo <= c <= hi)
  /\
  (exists self' c,
      EthylAlcohol.__init__ cls ∅ (VNum conc) = Ok self'
      /\ self' !! "c" = Some (VNum c)
      /\ clamped 0.0 0.6 conc c /\ 0.0 <= c <= 0.6).
Proof.
  intros Hlh.
  assert (Hc := clamp_clamped lo hi conc Hlh).
  assert (Hb := clamp_in_bounds lo hi conc Hlh).
  assert (H06 : 0.0 < 0.6) by reflexivity.
  split; [|split].
  - eexists. exists (clamp lo hi conc).
    split; [apply set_concentration_num|].
    split; [attr_lookup|]. split; [attr_lookup|]. split; [attr_lookup|].
    split; assumption.
  - eexists. exists (clamp lo hi conc).
    split; [apply init_with_concentration|].
    split; [attr_lookup|]. split; [attr_lookup|]. split; [attr_lookup|].
    split; assumption.
  - eexists. exists (clamp 0.0 0.6 conc).
    split; [apply ethyl_alcohol_init|].
    split; [reflexivity|].
    split; [now apply clamp_clamped | now apply clamp_in_bounds].
Qed.




(** ** Derived properties and aliases *)

(** C6. On every instance and at every temperature at which the three
    property evaluators return values, [prandtl] is
    [specific_heat * viscosity / conductivity], computed as that
    expression. Nothing guards the division: between numbers, a zero
    conductivity makes the division raise and [prandtl] with it. *)
Theorem prandtl_is_cp_mu_over_k `{cls : BaseFluid.derived}
    (self : obj) (temp a b c : value) :
  BaseFluid.specific_heat self temp = Ok a ->
  BaseFluid.viscosity self temp = Ok b ->
  BaseFluid.conductivity self temp = Ok c ->
  BaseFluid.prandtl self temp = derive_prandtl a b c
  /\ forall x y z : Q,
      a = VNum x -> b = VNum y -> c = VNum z ->
      BaseFluid.prandtl self temp
      = if Qeq_bool z 0 then Raise ZeroDivisionError
        else Ok (VNum (x * y / z)).
Proof.
  intros Ha Hb Hc.
  assert (E : BaseFluid.prandtl self temp = derive_prandtl a b c).
  { unfold BaseFluid.prandtl, BaseFluid.cp, BaseFluid.mu, BaseFluid.k,
      derive_prandtl.
    rewrite Ha, Hb. cbn [mbind result_bind].
    destruct (py_mul a b) as [p|e]; cbn [mbind result_bind];
      [now rewrite Hc | reflexivity]. }
  split; [exact E|].
  intros x y z -> -> ->. rewrite E. reflexivity.
Qed.

(** C7. On every instance and at every temperature at which the three
    property evaluators return values, [thermal_diffusivity] is
    [conductivity / (density * specific_heat)]. Nothing guards the
    division: between numbers, a zero denominator makes it raise. *)
Theorem thermal_diffusivity_is_k_over_rho_cp `{cls : BaseFluid.derived}
    (self : obj) (temp a b c : value) :
  BaseFluid.conductivity self temp = Ok a ->
  BaseFluid.density self temp = Ok b ->
  BaseFluid.specific_heat self temp = Ok c ->
  BaseFluid.thermal_diffusivity self temp = derive_thermal_diffusivity a b c
  /\ forall x y z : Q,
      a = VNum x -> b = VNum y -> c = VNum z ->
      BaseFluid.thermal_diffusivity self temp
      = if Qeq_bool (y * z) 0 then Raise ZeroDivisionError
        else Ok (VNum (x / (y * z))).
Proof.
  intros Ha Hb Hc.
  assert (E : BaseFluid.thermal_diffusivity self temp
              = derive_thermal_diffusivity a b c).
  { unfold BaseFluid.thermal_diffusivity, BaseFluid.cp, BaseFluid.rho,
      BaseFluid.k, derive_thermal_diffusivity.
    now rewrite Ha, Hb, Hc. }
  split; [exact E|].
  intros x y z -> -> ->. rewrite E. reflexivity.
Qed.

(** C8. On every instance and for every argument, inside the
    temperature bounds or not, each shorthand returns what the method it
    abbreviates returns: [mu] is [viscosity], [cp] is [specific_heat],
    [rho] is [density], [k] is [conductivity], [pr] is [prandtl] and
    [alpha] is [thermal_diffusivity]. *)
Theorem aliases_agree `{cls : BaseFluid.derived} (self : obj) (temp : value) :
  BaseFluid.mu self temp = BaseFluid.viscosity self temp
  /\ BaseFluid.cp self temp = BaseFluid.specific_heat self temp
  /\ BaseFluid.rho self temp = BaseFluid.density self temp
  /\ BaseFluid.k self temp = BaseFluid.conductivity self temp
  /\ BaseFluid.pr self temp = BaseFluid.prandtl self temp
  /\ BaseFluid.alpha self temp = BaseFluid.thermal_diffusivity self temp.
Proof. repeat split. Qed.

(** ** Worked instances *)

Lemma check_clamps_witness :
  0 < 100
  /\ (exists r,
        BaseFluid._check_temperature (cls := Sample.constant_fluid)
          Sample.bounded (VNum 120) = Ok (VNum r)
        /\ clamped 0 100 120 r)
  /\ (exists r,
        BaseFluid._check_concentration (cls := Sample.constant_fluid)
          Sample.bounded (VNum 120) = Ok (VNum r)
        /\ clamped 0 100 120 r).
Proof.
  assert (H : 0 < 100) by reflexivity.
  split; [exact H|].
  destruct (check_clamps_and_never_raises (cls := Sample.constant_fluid)
              Sample.bounded 0 100 120 H) as [Ht Hc].
  split; [apply Ht; reflexivity | apply Hc; reflexivity].
Defined.

Lemma calc_freeze_point_witness :
  EthylAlcohol.calc_freeze_point Sample.constant_fluid
    Sample.fraction_bounded (VNum 0.01) = Ok (VNum 0)
  /\ exists xc,
      clamped 0.0 0.6 0.9 xc
      /\ BaseFluid._check_concentration
           (cls := EthylAlcohol.cls Sample.constant_fluid)
           Sample.fraction_bounded (VNum 0.9) = Ok (VNum xc)
      /\ EthylAlcohol.calc_freeze_point Sample.constant_fluid
           Sample.fraction_bounded (VNum 0.9)
         = Ok (VNum (freeze_poly EthylAlcohol.coefficient_freeze xc)).
Proof.
  split.
  - apply (calc_freeze_point_spec Sample.constant_fluid
             EthylAlcohol.coefficient_freeze Sample.fraction_bounded
             0.0 0.6 0.01).
    reflexivity.
  - apply (calc_freeze_point_spec Sample.constant_fluid
             EthylAlcohol.coefficient_freeze Sample.fraction_bounded
             0.0 0.6 0.9).
    + apply Qle_bool_imp_le. reflexivity.
    + apply Nat.leb_le. reflexivity.
    + reflexivity.
    + reflexivity.
    + reflexivity.
Defined.


Lemma prandtl_witness :
  BaseFluid.prandtl (cls := Sample.constant_fluid) Sample.bounded (VNum 25)
  = Ok (VNum (4.181e+03 * 8.900e-04 / 6.065e-01))
  /\ BaseFluid.prandtl (cls := Sample.degenerate_fluid) Sample.bounded (VNum 25)
     = Raise ZeroDivisionError.
Proof.
  split.
  - exact (proj2 (prandtl_is_cp_mu_over_k (cls := Sample.constant_fluid)
                    Sample.bounded (VNum 25) _ _ _ eq_refl eq_refl eq_refl)
             _ _ _ eq_refl eq_refl eq_refl).
  - exact (proj2 (prandtl_is_cp_mu_over_k (cls := Sample.degenerate_fluid)
                    Sample.bounded (VNum 25) _ _ _ eq_refl eq_refl eq_refl)
             _ _ _ eq_refl eq_refl eq_refl).
Defined.

Lemma thermal_diffusivity_witness :
  BaseFluid.thermal_diffusivity (cls := Sample.constant_fluid)
    Sample.bounded (VNum 25)
  = Ok (VNum (6.065e-01 / (9.970e+02 * 4.181e+03)))
  /\ BaseFluid.thermal_diffusivity (cls := Sample.degenerate_fluid)
       Sample.bounded (VNum 25)
     = Raise ZeroDivisionError.
Proof.
  split.
  - exact (proj2 (thermal_diffusivity_is_k_over_rho_cp
                    (cls := Sample.constant_fluid)
                    Sample.bounded (VNum 25) _ _ _ eq_refl eq_refl eq_refl)
             _ _ _ eq_refl eq_refl eq_refl).
  - exact (proj2 (thermal_diffusivity_is_k_over_rho_cp
                    (cls := Sample.degenerate_fluid)
                    Sample.bounded (VNum 25) _ _ _ eq_refl eq_refl eq_refl)
             _ _ _ eq_refl eq_refl eq_refl).
Defined.

Lemma concentration_clamped_witness :
  0.0 < 0.6
  /\ exists self,
      BaseFluid.__init__ (cls := Sample.constant_fluid) ∅
        (VNum 0) (VNum 40) (VNum 0.9) (VNum 0.0) (VNum 0.6) = Ok self
      /\ self !! "c" = Some (VNum 0.6).
Proof.
  assert (H : 0.0 < 0.6) by reflexivity.
  split; [exact H|].
  destruct (concentration_clamped_at_construction
              (cls := Sample.constant_fluid) ∅ 0 40 0.9 0.0 0.6 H)
    as (_ & (self & c & Hinit & _ & _ & Hc & (_ & Habove & _) & _) & _).
  exists self. split; [exact Hinit|].
  rewrite Hc, (Habove eq_refl). reflexivity.
Defined.

(** * Further properties of the code *)

(** ** The clamp of the two checks *)

(** Splits on every comparison of a clamp and turns each outcome into
    the inequality it stands for. *)
Ltac clamp_cases :=
  unfold clamp;
  repeat match goal with
         | |- context [Qltb ?a ?b] =>
             let E := fresh "E" in
             destruct (Qltb a b) eqn:E;
             [apply Qltb_true in E | apply Qltb_false in E]
         end.

Lemma clamp_within (lo hi v : Q) : lo <= hi -> lo <= clamp lo hi v <= hi.
Proof. intros H. clamp_cases; lra. Qed.

Lemma clamp_idempotent (lo hi v : Q) :
  lo <= hi -> clamp lo hi (clamp lo hi v) = clamp lo hi v.
Proof. intros H. clamp_cases; reflexivity || (exfalso; lra). Qed.

Lemma clamp_monotone (lo hi v w : Q) :
  lo <= hi -> v <= w -> clamp lo hi v <= clamp lo hi w.
Proof. intros H Hvw. clamp_cases; lra. Qed.

Lemma clamp_inverted (lo hi v : Q) :
  hi < lo ->
  (v < lo -> clamp lo hi v = lo) /\ (lo <= v -> clamp lo hi v = hi)
  /\ ~ clamp lo hi v == v.
Proof.
  intros H. split; [|split].
  - intros Hv. clamp_cases; reflexivity || lra.
  - intros Hv. clamp_cases; reflexivity || lra.
  - clamp_cases; lra.
Qed.

(** X1. With numeric bounds [lo <= hi] stored on the instance, what the
    temperature check and the concentration check return lies within the
    bounds, whatever the numeric query. *)
Theorem checks_stay_within_bounds `{cls : BaseFluid.derived}
    (self : obj) (lo hi v : Q) :
  lo <= hi ->
  (self !! "t_min" = Some (VNum lo) -> self !! "t_max" = Some (VNum hi) ->
   exists r, BaseFluid._check_temperature self (VNum v) = Ok (VNum r)
             /\ lo <= r <= hi)
  /\
  (self !! "c_min" = Some (VNum lo) -> self !! "c_max" = Some (VNum hi) ->
   exists r, BaseFluid._check_concentration self (VNum v) = Ok (VNum r)
             /\ lo <= r <= hi).
Proof.
  intros Hlh. split; intros Hlo Hhi; exists (clamp lo hi v);
    (split; [|now apply clamp_within]).
  - now apply check_temperature_num.
  - now apply check_concentration_num.
Qed.

(** X2. With numeric bounds [lo <= hi], both checks are idempotent:
    checking a value a check returned gives that value back. *)
Theorem checks_idempotent `{cls : BaseFluid.derived}
    (self : obj) (lo hi v : Q) :
  lo <= hi ->
  (self !! "t_min" = Some (VNum lo) -> self !! "t_max" = Some (VNum hi) ->
   exists r, BaseFluid._check_temperature self (VNum v) = Ok (VNum r)
             /\ BaseFluid._check_temperature self (VNum r) = Ok (VNum r))
  /\
  (self !! "c_min" = Some (VNum lo) -> self !! "c_max" = Some (VNum hi) ->
   exists r, BaseFluid._check_concentration self (VNum v) = Ok (VNum r)
             /\ BaseFluid._check_concentration self (VNum r) = Ok (VNum r)).
Proof.
  intros Hlh. split; intros Hlo Hhi; exists (clamp lo hi v).
  - rewrite !(check_temperature_num _ _ _ _ Hlo Hhi).
    now rewrite clamp_idempotent.
  - rewrite !(check_concentration_num _ _ _ _ Hlo Hhi).
    now rewrite clamp_idempotent.
Qed.

(** X3. With numeric bounds [lo <= hi], both checks preserve the order
    of their arguments: a larger query never gets a smaller answer. *)
Theorem checks_monotone `{cls : BaseFluid.derived}
    (self : obj) (lo hi v w : Q) :
  lo <= hi ->
  v <= w ->
  (self !! "t_min" = Some (VNum lo) -> self !! "t_max" = Some (VNum hi) ->
   exists r s, BaseFluid._check_temperature self (VNum v) = Ok (VNum r)
               /\ BaseFluid._check_temperature self (VNum w) = Ok (VNum s)
               /\ r <= s)
  /\
  (self !! "c_min" = Some (VNum lo) -> self !! "c_max" = Some (VNum hi) ->
   exists r s, BaseFluid._check_concentration self (VNum v) = Ok (VNum r)
               /\ BaseFluid._check_concentration self (VNum w) = Ok (VNum s)
               /\ r <= s).
Proof.
  intros Hlh Hvw. split; intros Hlo Hhi;
    exists (clamp lo hi v), (clamp lo hi w).
  - rewrite !(check_temperature_num _ _ _ _ Hlo Hhi).
    repeat split. now apply clamp_monotone.
  - rewrite !(check_concentration_num _ _ _ _ Hlo Hhi).
    repeat split. now apply clamp_monotone.
Qed.

(** X4. With inverted numeric bounds ([hi < lo], which the setters
    accept), both checks replace every query: they return the lower
    bound for a query below it and the upper bound for every other
    query, never the query itself. *)
Theorem checks_with_inverted_bounds `{cls : BaseFluid.derived}
    (self : obj) (lo hi v : Q) :
  hi < lo ->
  (self !! "t_min" = Some (VNum lo) -> self !! "t_max" = Some (VNum hi) ->
   exists r, BaseFluid._check_temperature self (VNum v) = Ok (VNum r)
             /\ (v < lo -> r = lo) /\ (lo <= v -> r = hi) /\ ~ r == v)
  /\
  (self !! "c_min" = Some (VNum lo) -> self !! "c_max" = Some (VNum hi) ->
   exists r, BaseFluid._check_concentration self (VNum v) = Ok (VNum r)
             /\ (v < lo -> r = lo) /\ (lo <= v -> r = hi) /\ ~ r == v).
Proof.
  intros Hlh. split; intros Hlo Hhi; exists (clamp lo hi v);
    (split; [|now apply clamp_inverted]).
  - now apply check_temperature_num.
  - now apply check_concentration_num.
Qed.

(** X5. The failures of the temperature check. On an object without
    [t_min] it raises [AttributeError] for every argument; when [t_min]
    holds [None], and when the query is [None], it raises [TypeError].
    The upper bound is read only for a query that is not below the
    lower one: without [t_max], a query below [t_min] still returns
    [t_min], and any other query raises [AttributeError]. *)
Theorem check_temperature_failures `{cls : BaseFluid.derived} (self : obj) :
  (self !! "t_min" = None ->
   forall temp, BaseFluid._check_temperature self temp
                = Raise (AttributeError "t_min"))
  /\ (self !! "t_min" = Some VNone ->
      forall temp, BaseFluid._check_temperature self temp = Raise TypeError)
  /\ (forall lo, self !! "t_min" = Some lo ->
      BaseFluid._check_temperature self VNone = Raise TypeError)
  /\ (forall lo v : Q,
      self !! "t_min" = Some (VNum lo) -> self !! "t_max" = None ->
      (v < lo -> BaseFluid._check_temperature self (VNum v) = Ok (VNum lo))
      /\ (lo <= v -> BaseFluid._check_temperature self (VNum v)
                     = Raise (AttributeError "t_max"))).
Proof.
  split; [|split; [|split]].
  - intros H temp. unfold BaseFluid._check_temperature.
    now rewrite (getattr_None _ _ H).
  - intros H temp. unfold BaseFluid._check_temperature.
    rewrite (getattr_Some _ _ _ H). now destruct temp.
  - intros lo H. unfold BaseFluid._check_temperature.
    now rewrite (getattr_Some _ _ _ H).
  - intros lo v Hlo Hhi.
    destruct (fmt_attr_num _ _ _ Hlo) as [s Es].
    unfold BaseFluid._check_temperature.
    rewrite (getattr_Some _ _ _ Hlo), (getattr_None _ _ Hhi), Es.
    cbn [mbind result_bind py_lt].
    split; intros Hv.
    + now rewrite (proj2 (Qltb_true _ _) Hv).
    + now rewrite (proj2 (Qltb_false _ _) Hv).
Qed.

(** ** Construction: failures, composition with the checks, frame *)

(** X6. The constructor raises [TypeError], and returns no instance,
    when a temperature bound is [None], and also when a numeric
    concentration comes with a concentration bound left at its default
    [None]. *)
Theorem init_rejects_none_bounds `{cls : BaseFluid.derived} (self : obj) :
  (forall t_max conc c_min c_max,
      BaseFluid.__init__ self VNone t_max conc c_min c_max = Raise TypeError)
  /\ (forall t_min conc c_min c_max,
      BaseFluid.__init__ self t_min VNone conc c_min c_max = Raise TypeError)
  /\ (forall (t_min t_max conc : Q) c_max,
      BaseFluid.__init__ self (VNum t_min) (VNum t_max) (VNum conc) VNone c_max
      = Raise TypeError)
  /\ (forall (t_min t_max conc : Q) c_min,
      BaseFluid.__init__ self (VNum t_min) (VNum t_max) (VNum conc) c_min VNone
      = Raise TypeError).
Proof.
  split; [|split; [|split]].
  - reflexivity.
  - intros [|t_min]; reflexivity.
  - reflexivity.
  - intros t_min t_max conc [|c_min]; reflexivity.
Qed.

(** X7. An instance constructed from numbers, in whatever order the
    bounds come, answers both checks: the temperature check returns a
    number for every numeric query, and the concentration check applied
    to the constructor's own concentration argument returns exactly the
    stored concentration [c]. *)
Theorem constructed_instance_answers_checks `{cls : BaseFluid.derived}
    (self : obj) (t_min t_max conc lo hi v : Q) :
  exists self' c,
    BaseFluid.__init__ self (VNum t_min) (VNum t_max)
                       (VNum conc) (VNum lo) (VNum hi) = Ok self'
    /\ self' !! "c" = Some (VNum c)
    /\ BaseFluid._check_concentration self' (VNum conc) = Ok (VNum c)
    /\ exists r, BaseFluid._check_temperature self' (VNum v) = Ok (VNum r).
Proof.
  eexists. exists (clamp lo hi conc).
  split; [apply init_with_concentration|].
  split; [attr_lookup|].
  split; [apply check_concentration_num; attr_lookup|].
  eexists. apply check_temperature_num; attr_lookup.
Qed.

Lemma init_Ok_shape `{cls : BaseFluid.derived}
    (self self' : obj) (t_min t_max conc c_min c_max : value) :
  BaseFluid.__init__ self t_min t_max conc c_min c_max = Ok self' ->
  exists (a b : Q),
    t_min = VNum a /\ t_max = VNum b
    /\ ((conc = VNone
         /\ self' = <["t_max" := VNum b]> (<["t_min" := VNum a]>
                      (<["t_max" := VNone]> (<["t_min" := VNone]> self))))
        \/ exists q lo hi : Q,
            conc = VNum q /\ c_min = VNum lo /\ c_max = VNum hi
            /\ BaseFluid.__init__ self (VNum a) (VNum b)
                 (VNum q) (VNum lo) (VNum hi) = Ok self').
Proof.
  intros H.
  destruct t_min as [|a]; [discriminate H|].
  destruct t_max as [|b]; [discriminate H|].
  exists a, b. split; [reflexivity|]. split; [reflexivity|].
  destruct conc as [|q].
  - left. rewrite init_without_concentration in H.
    injection H as <-. now split.
  - right. destruct c_min as [|lo]; [discriminate H|].
    destruct c_max as [|hi]; [discriminate H|].
    now exists q, lo, hi.
Qed.

(** X8. The constructor assigns [t_min], [t_max], [c_min], [c_max] and
    [c] and nothing else: whenever it returns, for arguments of any
    kind, every other attribute of the object is as it was before. *)
Theorem init_leaves_other_attributes `{cls : BaseFluid.derived}
    (self self' : obj) (t_min t_max conc c_min c_max : value)
    (name : string) :
  BaseFluid.__init__ self t_min t_max conc c_min c_max = Ok self' ->
  name ∉ ["t_min"; "t_max"; "c_min"; "c_max"; "c"]%string ->
  self' !! name = self !! name.
Proof.
  intros H Hn.
  rewrite !not_elem_of_cons in Hn.
  destruct Hn as (N1 & N2 & N3 & N4 & N5 & _).
  destruct (init_Ok_shape _ _ _ _ _ _ _ H)
    as (a & b & -> & -> & [[-> ->] | (q & lo & hi & -> & -> & -> & H')]).
  - now rewrite !lookup_insert_ne by congruence.
  - rewrite init_with_concentration in H'. injection H' as <-.
    now rewrite !lookup_insert_ne by congruence.
Qed.

(** ** The ethyl-alcohol freeze point *)

Lemma freeze_poly_4 (a b c d x : Q) :
  freeze_poly [a; b; c; d] x == a + b * x + c * (x * x) + d * (x * x * x).
Proof.
  unfold freeze_poly. cbn [length seq map nth fold_left].
  change (x ^ Z.of_nat 0) with 1. change (x ^ Z.of_nat 1) with x.
  change (x ^ Z.of_nat 2) with (x * x).
  change (x ^ Z.of_nat 3) with (x * (x * x)).
  ring.
Qed.

(** The fit as the comment of [calc_freeze_point] writes it:
    [t_f = a + b * conc + c * conc**2 + d * conc**3]. *)
Lemma freeze_poly_cubic (x : Q) :
  freeze_poly EthylAlcohol.coefficient_freeze x
  == 2.4685 - 0.98592 * x + 0.01675 * (x * x) - 0.00018251 * (x * x * x).
Proof.
  unfold EthylAlcohol.coefficient_freeze. rewrite freeze_poly_4.
  change (-9.8592e-01) with (-0.98592).
  change (1.6750e-02) with (0.016750).
  change (-1.8251e-04) with (-0.00018251).
  ring.
Qed.

Lemma freeze_poly_range (x : Q) :
  0 <= x <= 0.6 -> 1.8 < freeze_poly EthylAlcohol.coefficient_freeze x < 2.5.
Proof.
  intros [H0 H1]. rewrite freeze_poly_cubic.
  assert (Hxx : 0 <= x * x) by nra.
  assert (Hxx1 : x * x <= 0.36) by nra.
  assert (Hxxx : 0 <= x * x * x) by nra.
  assert (Hxxx1 : x * x * x <= 0.216) by nra.
  split; lra.
Qed.

Lemma freeze_point_range (x : Q) :
  0 <= freeze_point x < 2.5 /\ (0.05 <= x -> 1.8 < freeze_point x).
Proof.
  assert (Hc : 0 <= clamp 0.0 0.6 x <= 0.6).
  { destruct (clamp_within 0.0 0.6 x); [lra|]. split; lra. }
  destruct (freeze_poly_range _ Hc) as [Hl Hu].
  unfold freeze_point.
  destruct (Qltb x 0.05) eqn:E;
    [apply Qltb_true in E | apply Qltb_false in E];
    (split; [split|intros Hx]); lra.
Qed.

(** X9. Every ethyl-alcohol instance built from a numeric concentration
    satisfies the invariants of a fluid instance: [t_max] is 40 and
    [t_min], the freeze point, lies in [[0, 2.5)], so [t_min < t_max];
    the concentration bounds are [0 < 0.6] and the stored concentration
    lies within them. *)
Theorem ethyl_alcohol_instance_invariants (inherited : BaseFluid.derived)
    (x : Q) :
  exists (self : obj) (t c : Q),
    EthylAlcohol.__init__ inherited ∅ (VNum x) = Ok self
    /\ self !! "t_min" = Some (VNum t)
    /\ self !! "t_max" = Some (VNum 40)
    /\ self !! "c_min" = Some (VNum 0.0)
    /\ self !! "c_max" = Some (VNum 0.6)
    /\ self !! "c" = Some (VNum c)
    /\ 0 <= t < 2.5 /\ t < 40
    /\ 0.0 <= c <= 0.6.
Proof.
  eexists. exists (freeze_point x), (clamp 0.0 0.6 x).
  split; [apply ethyl_alcohol_init|].
  do 5 (split; [reflexivity|]).
  destruct (freeze_point_range x) as [[H0 H1] _].
  split; [now split|]. split; [lra|].
  apply clamp_within. lra.
Qed.

(** X10. On an instance with the concentration bounds of the class, the
    freeze point [calc_freeze_point] returns is never negative and stays
    below 2.5; from the threshold [0.05] on it is above 1.8, so the
    result jumps from 0 to above 1.8 at the threshold. *)
Theorem calc_freeze_point_range (inherited : BaseFluid.derived)
    (self : obj) (x : Q) :
  self !! "c_min" = Some (VNum 0.0) ->
  self !! "c_max" = Some (VNum 0.6) ->
  exists t,
    EthylAlcohol.calc_freeze_point inherited self (VNum x) = Ok (VNum t)
    /\ 0 <= t < 2.5
    /\ (x < 0.05 -> t = 0)
    /\ (0.05 <= x -> 1.8 < t).
Proof.
  intros Hlo Hhi. exists (freeze_point x).
  split; [now apply calc_freeze_point_num|].
  destruct (freeze_point_range x) as [H H'].
  split; [exact H|]. split; [|exact H'].
  intros Hx. unfold freeze_point. now rewrite (proj2 (Qltb_true _ _) Hx).
Qed.

(** X11. Above the upper concentration bound the freeze point no longer
    changes: for every [x >= 0.6], [calc_freeze_point] returns the
    number it returns at [0.6]. *)
Theorem calc_freeze_point_saturates (inherited : BaseFluid.derived)
    (self : obj) (x : Q) :
  self !! "c_min" = Some (VNum 0.0) ->
  self !! "c_max" = Some (VNum 0.6) ->
  0.6 <= x ->
  exists t u,
    EthylAlcohol.calc_freeze_point inherited self (VNum x) = Ok (VNum t)
    /\ EthylAlcohol.calc_freeze_point inherited self (VNum 0.6) = Ok (VNum u)
    /\ t == u.
Proof.
  intros Hlo Hhi Hx. exists (freeze_point x), (freeze_point 0.6).
  rewrite !(calc_freeze_point_num _ _ _ Hlo Hhi).
  repeat split. unfold freeze_point.
  assert (H5 : 0.05 <= x) by lra.
  rewrite (proj2 (Qltb_false _ _) H5).
  change (Qltb 0.6 0.05) with false. cbv iota.
  change (clamp 0.0 0.6 0.6) with 0.6.
  assert (Hc : clamp 0.0 0.6 x == 0.6) by (clamp_cases; lra).
  rewrite !freeze_poly_cubic, Hc. reflexivity.
Qed.

(** X13. The stored freeze point can be recomputed from the stored
    concentration: on every ethyl-alcohol instance built from a numeric
    concentration, [calc_freeze_point] applied to the attribute [c]
    returns the attribute [t_freeze]. *)
Theorem t_freeze_recomputed_from_c (inherited : BaseFluid.derived) (x : Q) :
  exists (self : obj) (c t : value),
    EthylAlcohol.__init__ inherited ∅ (VNum x) = Ok self
    /\ self !! "c" = Some c
    /\ self !! "t_freeze" = Some t
    /\ EthylAlcohol.calc_freeze_point inherited self c = Ok t.
Proof.
  eexists. exists (VNum (clamp 0.0 0.6 x)), (VNum (freeze_point x)).
  split; [apply ethyl_alcohol_init|].
  split; [reflexivity|]. split; [reflexivity|].
  rewrite calc_freeze_point_num by reflexivity.
  do 2 f_equal. unfold freeze_point.
  assert (H06 : 0.0 <= 0.6) by lra.
  rewrite (clamp_idempotent _ _ _ H06).
  destruct (Qltb x 0.05) eqn:E;
    [apply Qltb_true in E | apply Qltb_false in E].
  - assert (Hc : clamp 0.0 0.6 x < 0.05) by (clamp_cases; lra).
    now rewrite (proj2 (Qltb_true _ _) Hc).
  - assert (Hc : 0.05 <= clamp 0.0 0.6 x) by (clamp_cases; lra).
    now rewrite (proj2 (Qltb_false _ _) Hc).
Qed.

(** X14. Constructing the ethyl-alcohol mixture with [None] for a
    concentration raises [TypeError]: the base constructor skips the
    concentration, and the freeze-point threshold test fails on
    [None]. *)
Theorem ethyl_alcohol_rejects_none (inherited : BaseFluid.derived)
    (self : obj) :
  EthylAlcohol.__init__ inherited self VNone = Raise TypeError
  /\ forall self', EthylAlcohol.calc_freeze_point inherited self' VNone
                   = Raise TypeError.
Proof. split; reflexivity. Qed.

(** ** Derived properties: what a returned value guarantees *)

Lemma py_mul_Ok (a b v : value) :
  py_mul a b = Ok v ->
  exists x y : Q, a = VNum x /\ b = VNum y /\ v = VNum (x * y).
Proof.
  destruct a as [|x], b as [|y]; try discriminate.
  intros [= <-]. now exists x, y.
Qed.

Lemma py_truediv_Ok (a b v : value) :
  py_truediv a b = Ok v ->
  exists x y : Q, a = VNum x /\ b = VNum y /\ ~ y == 0 /\ v = VNum (x / y).
Proof.
  destruct a as [|x], b as [|y]; try discriminate.
  unfold py_truediv. destruct (Qeq_bool y 0) eqn:E; [discriminate|].
  intros [= <-]. exists x, y. repeat split.
  now apply Qeq_bool_neq.
Qed.

(** X15. [prandtl] returns a value only when all three evaluators
    returned numbers and the conductivity is not zero, and the value is
    then the number [cp * mu / k]: it never returns [None], and never
    returns when an evaluator raised or returned [None]. *)
Theorem prandtl_returns_only_quotients `{cls : BaseFluid.derived}
    (self : obj) (temp v : value) :
  BaseFluid.prandtl self temp = Ok v ->
  exists a b c : Q,
    BaseFluid.specific_heat self temp = Ok (VNum a)
    /\ BaseFluid.viscosity self temp = Ok (VNum b)
    /\ BaseFluid.conductivity self temp = Ok (VNum c)
    /\ ~ c == 0
    /\ v = VNum (a * b / c).
Proof.
  unfold BaseFluid.prandtl, BaseFluid.cp, BaseFluid.mu, BaseFluid.k.
  destruct (BaseFluid.specific_heat self temp) as [a|]; [|discriminate].
  destruct (BaseFluid.viscosity self temp) as [b|]; [|discriminate].
  cbn [mbind result_bind].
  destruct (py_mul a b) as [ab|] eqn:Eab; [|discriminate].
  cbn [mbind result_bind].
  destruct (BaseFluid.conductivity self temp) as [c|]; [|discriminate].
  cbn [mbind result_bind]. intros Hdiv.
  destruct (py_mul_Ok _ _ _ Eab) as (x & y & -> & -> & ->).
  destruct (py_truediv_Ok _ _ _ Hdiv) as (p & z & [= <-] & -> & Hz & ->).
  now exists x, y, z.
Qed.

(** X16. [thermal_diffusivity] returns a value only when all three
    evaluators returned numbers and [density * specific_heat] is not
    zero, and the value is then the number [k / (rho * cp)]. *)
Theorem thermal_diffusivity_returns_only_quotients `{cls : BaseFluid.derived}
    (self : obj) (temp v : value) :
  BaseFluid.thermal_diffusivity self temp = Ok v ->
  exists a b c : Q,
    BaseFluid.conductivity self temp = Ok (VNum a)
    /\ BaseFluid.density self temp = Ok (VNum b)
    /\ BaseFluid.specific_heat self temp = Ok (VNum c)
    /\ ~ b * c == 0
    /\ v = VNum (a / (b * c)).
Proof.
  unfold BaseFluid.thermal_diffusivity, BaseFluid.cp, BaseFluid.rho,
    BaseFluid.k.
  destruct (BaseFluid.conductivity self temp) as [a|]; [|discriminate].
  destruct (BaseFluid.density self temp) as [b|]; [|discriminate].
  destruct (BaseFluid.specific_heat self temp) as [c|]; [|discriminate].
  cbn [mbind result_bind].
  destruct (py_mul b c) as [bc|] eqn:Ebc; [|discriminate].
  cbn [mbind result_bind]. intros Hdiv.
  destruct (py_mul_Ok _ _ _ Ebc) as (y & z & -> & -> & ->).
  destruct (py_truediv_Ok _ _ _ Hdiv) as (x & q & -> & [= <-] & Hq & ->).
  now exists x, y, z.
Qed.

(** X18. The first failure wins, in the order the operands are
    evaluated. [prandtl] raises what [specific_heat] raises, else what
    [viscosity] raises, else [TypeError] if one of the two returned
    [None], and only then what [conductivity] raises.
    [thermal_diffusivity] calls all three evaluators before any
    arithmetic: it raises what [conductivity], then [density], then
    [specific_heat] raises, even when an earlier one returned [None]. *)
Theorem derived_properties_first_failure `{cls : BaseFluid.derived}
    (self : obj) (temp : value) (e : exn) :
  (BaseFluid.specific_heat self temp = Raise e ->
   BaseFluid.prandtl self temp = Raise e)
  /\ (forall a, BaseFluid.specific_heat self temp = Ok a ->
      BaseFluid.viscosity self temp = Raise e ->
      BaseFluid.prandtl self temp = Raise e)
  /\ (forall a b, BaseFluid.specific_heat self temp = Ok a ->
      BaseFluid.viscosity self temp = Ok b ->
      a = VNone \/ b = VNone ->
      BaseFluid.prandtl self temp = Raise TypeError)
  /\ (forall a b : Q, BaseFluid.specific_heat self temp = Ok (VNum a) ->
      BaseFluid.viscosity self temp = Ok (VNum b) ->
      BaseFluid.conductivity self temp = Raise e ->
      BaseFluid.prandtl self temp = Raise e)
  /\ (BaseFluid.conductivity self temp = Raise e ->
      BaseFluid.thermal_diffusivity self temp = Raise e)
  /\ (forall a, BaseFluid.conductivity self temp = Ok a ->
      BaseFluid.density self temp = Raise e ->
      BaseFluid.thermal_diffusivity self temp = Raise e)
  /\ (forall a b, BaseFluid.conductivity self temp = Ok a ->
      BaseFluid.density self temp = Ok b ->
      BaseFluid.specific_heat self temp = Raise e ->
      BaseFluid.thermal_diffusivity self temp = Raise e).
Proof.
  unfold BaseFluid.prandtl, BaseFluid.thermal_diffusivity,
    BaseFluid.cp, BaseFluid.mu, BaseFluid.k, BaseFluid.rho.
  repeat split.
  - now intros ->.
  - now intros a -> ->.
  - intros a b -> -> [-> | ->]; [reflexivity | now destruct a].
  - now intros a b -> -> ->.
  - now intros ->.
  - now intros a -> ->.
  - now intros a b -> -> ->.
Qed.

(** ** Worked instances of the further properties *)

(** Proves a comparison between two literals by computing it. *)
Ltac literal_le := apply Qle_bool_imp_le; reflexivity.

Lemma checks_stay_within_bounds_witness :
  exists r,
    BaseFluid._check_temperature (cls := Sample.constant_fluid)
      Sample.bounded (VNum 120) = Ok (VNum r)
    /\ 0 <= r <= 100.
Proof.
  assert (H : 0 <= 100) by literal_le.
  apply (proj1 (checks_stay_within_bounds (cls := Sample.constant_fluid)
                  Sample.bounded 0 100 120 H)); reflexivity.
Defined.

Lemma checks_idempotent_witness :
  exists r,
    BaseFluid._check_concentration (cls := Sample.constant_fluid)
      Sample.fraction_bounded (VNum 0.9) = Ok (VNum r)
    /\ BaseFluid._check_concentration (cls := Sample.constant_fluid)
         Sample.fraction_bounded (VNum r) = Ok (VNum r).
Proof.
  assert (H : 0.0 <= 0.6) by literal_le.
  apply (proj2 (checks_idempotent (cls := Sample.constant_fluid)
                  Sample.fraction_bounded 0.0 0.6 0.9 H)); reflexivity.
Defined.

Lemma checks_monotone_witness :
  exists r s,
    BaseFluid._check_temperature (cls := Sample.constant_fluid)
      Sample.bounded (VNum (-5)) = Ok (VNum r)
    /\ BaseFluid._check_temperature (cls := Sample.constant_fluid)
         Sample.bounded (VNum 25) = Ok (VNum s)
    /\ r <= s.
Proof.
  assert (H : 0 <= 100) by literal_le.
  assert (Hvw : -5 <= 25) by literal_le.
  apply (proj1 (checks_monotone (cls := Sample.constant_fluid)
                  Sample.bounded 0 100 (-5) 25 H Hvw)); reflexivity.
Defined.

Lemma checks_with_inverted_bounds_witness :
  exists r,
    BaseFluid._check_temperature (cls := Sample.constant_fluid)
      (<["t_max" := VNum 10]> (<["t_min" := VNum 50]> ∅)) (VNum 25)
    = Ok (VNum r)
    /\ (25 < 50 -> r = 50) /\ (50 <= 25 -> r = 10) /\ ~ r == 25.
Proof.
  assert (H : 10 < 50) by reflexivity.
  apply (proj1 (checks_with_inverted_bounds (cls := Sample.constant_fluid)
                  (<["t_max" := VNum 10]> (<["t_min" := VNum 50]> ∅))
                  50 10 25 H)); reflexivity.
Defined.

Lemma check_temperature_failures_witness :
  BaseFluid._check_temperature (cls := Sample.constant_fluid)
    Sample.fraction_bounded (VNum 25) = Raise (AttributeError "t_min")
  /\ BaseFluid._check_temperature (cls := Sample.constant_fluid)
       Sample.bounded VNone = Raise TypeError.
Proof.
  split.
  - apply (proj1 (check_temperature_failures (cls := Sample.constant_fluid)
                    Sample.fraction_bounded)). reflexivity.
  - apply (proj1 (proj2 (proj2 (check_temperature_failures
                                  (cls := Sample.constant_fluid)
                                  Sample.bounded))) (VNum 0)).
    reflexivity.
Defined.

Lemma init_leaves_other_attributes_witness :
  exists self',
    BaseFluid.__init__ (cls := Sample.constant_fluid)
      {["x_base" := VNum 29.2361]}
      (VNum 0) (VNum 40) (VNum 0.3) (VNum 0.0) (VNum 0.6) = Ok self'
    /\ self' !! "x_base" = Some (VNum 29.2361).
Proof.
  assert (H := init_with_concentration (cls := Sample.constant_fluid)
                 {["x_base" := VNum 29.2361]} 0 40 0.3 0.0 0.6).
  eexists. split; [exact H|].
  rewrite (init_leaves_other_attributes (cls := Sample.constant_fluid)
             _ _ _ _ _ _ _ "x_base" H).
  - reflexivity.
  - rewrite !not_elem_of_cons. repeat split; try discriminate.
    apply not_elem_of_nil.
Defined.

Lemma calc_freeze_point_range_witness :
  exists t,
    EthylAlcohol.calc_freeze_point Sample.constant_fluid
      Sample.fraction_bounded (VNum 0.3) = Ok (VNum t)
    /\ 0 <= t < 2.5 /\ (0.3 < 0.05 -> t = 0) /\ (0.05 <= 0.3 -> 1.8 < t).
Proof.
  apply (calc_freeze_point_range Sample.constant_fluid
           Sample.fraction_bounded 0.3); reflexivity.
Defined.

Lemma calc_freeze_point_saturates_witness :
  exists t u,
    EthylAlcohol.calc_freeze_point Sample.constant_fluid
      Sample.fraction_bounded (VNum 0.9) = Ok (VNum t)
    /\ EthylAlcohol.calc_freeze_point Sample.constant_fluid
         Sample.fraction_bounded (VNum 0.6) = Ok (VNum u)
    /\ t == u.
Proof.
  apply (calc_freeze_point_saturates Sample.constant_fluid
           Sample.fraction_bounded 0.9);
    [reflexivity | reflexivity | literal_le].
Defined.

Lemma prandtl_returns_only_quotients_witness :
  exists a b c : Q,
    BaseFluid.specific_heat (derived := Sample.constant_fluid)
      Sample.bounded (VNum 25) = Ok (VNum a)
    /\ BaseFluid.viscosity (derived := Sample.constant_fluid)
         Sample.bounded (VNum 25) = Ok (VNum b)
    /\ BaseFluid.conductivity (derived := Sample.constant_fluid)
         Sample.bounded (VNum 25) = Ok (VNum c)
    /\ ~ c == 0
    /\ VNum (4.181e+03 * 8.900e-04 / 6.065e-01) = VNum (a * b / c).
Proof.
  exact (prandtl_returns_only_quotients (cls := Sample.constant_fluid)
           Sample.bounded (VNum 25) _ eq_refl).
Defined.

Lemma thermal_diffusivity_returns_only_quotients_witness :
  exists a b c : Q,
    BaseFluid.conductivity (derived := Sample.constant_fluid)
      Sample.bounded (VNum 25) = Ok (VNum a)
    /\ BaseFluid.density (derived := Sample.constant_fluid)
         Sample.bounded (VNum 25) = Ok (VNum b)
    /\ BaseFluid.specific_heat (derived := Sample.constant_fluid)
         Sample.bounded (VNum 25) = Ok (VNum c)
    /\ ~ b * c == 0
    /\ VNum (6.065e-01 / (9.970e+02 * 4.181e+03)) = VNum (a / (b * c)).
Proof.
  exact (thermal_diffusivity_returns_only_quotients
           (cls := Sample.constant_fluid) Sample.bounded (VNum 25) _ eq_refl).
Defined.

Lemma derived_properties_first_failure_witness :
  BaseFluid.prandtl (cls := Sample.unfitted_fluid) Sample.bounded (VNum 25)
  = Raise TypeError.
Proof.
  apply (proj1 (proj2 (proj2 (derived_properties_first_failure
                                (cls := Sample.unfitted_fluid)
                                Sample.bounded (VNum 25) TypeError)))
           (VNum 4.181e+03) VNone eq_refl eq_refl).
  right. reflexivity.
Defined.
